(** * Data-splitting protocols and convnet shape bookkeeping

    A shallow embedding of the code cells of the notebooks
    [5_2_model_evaluation.ipynb] (hold-out and K-fold validation) and
    [5_1_convnet_introduction.ipynb] (a small convnet and its printed
    summary, with its functional-API variant), together with the
    properties the specification states about them.

    Python integers are [Z]; arrays are lists along their first axis, the
    samples themselves being opaque.  Calls into NumPy keep the calling
    convention of the library, and a call that the library rejects yields the
    exception it raises. *)

From Stdlib Require Import String ZArith List Lia Permutation Bool.
Import ListNotations.
Local Open Scope Z_scope.

Set Implicit Arguments.

(* ===================================================================== *)
(** * Python and NumPy fragments *)
(* ===================================================================== *)

Module Py.

(** Exceptions that the modelled calls can raise. *)
Inductive exn : Type :=
| TypeError
| ValueError
| ZeroDivisionError.

(** Outcome of an expression: a value, or a raised exception. *)
Inductive result (X : Type) : Type :=
| Ok (x : X)
| Raise (e : exn).

Arguments Ok {X} x.
Arguments Raise {X} e.

(** [a // b] on integers: floor division, [ZeroDivisionError] for [b = 0].
    [Z.div] rounds towards minus infinity like Python does. *)
Definition floordiv (a b : Z) : result Z :=
  if b =? 0 then Raise ZeroDivisionError else Ok (a / b).

(** [range(k)]: the integers [0 .. k-1], empty for [k <= 0]. *)
Definition range (k : Z) : list Z :=
  map Z.of_nat (seq 0 (Z.to_nat k)).

Section Sequences.
Context {A : Type}.

(** [len(l)] *)
Definition len (l : list A) : Z := Z.of_nat (length l).

(** Normalisation of one slice bound against a length [n] (step 1): a
    negative bound counts from the end, and every bound is clamped to
    [0 .. n]. *)
Definition adjust_index (n i : Z) : Z :=
  if i <? 0 then Z.max 0 (i + n) else Z.min i n.

(** [l[start:stop]]; [None] is an omitted bound. *)
Definition slice (l : list A) (start stop : option Z) : list A :=
  let n := len l in
  let lo := match start with Some i => adjust_index n i | None => 0 end in
  let hi := match stop with Some j => adjust_index n j | None => n end in
  firstn (Z.to_nat (hi - lo)) (skipn (Z.to_nat lo) l).

(** First positional argument of [np.concatenate]: the sequence of
    arrays to join.  The notebook passes either a Python list of arrays
    or a single array, which NumPy then iterates row by row. *)
Inductive arrays_arg : Type :=
| Arrays (arrs : list (list A))
| Rows (a : list A).

(** Second positional argument of [np.concatenate], the [axis]: left at
    its default [0], or bound to an array object. *)
Inductive axis_arg : Type :=
| AxisDefault
| AxisObj (a : list A).

(** [np.concatenate(arrays, axis)] on one-dimensional arrays of samples.
    The axis has to be an integer: an array in its place is rejected
    with [TypeError] when the arguments are converted, before the arrays
    are looked at.  Along axis 0 a non-empty sequence of arrays is
    joined in order; an empty sequence, or the zero-dimensional rows of
    a single array, are rejected with [ValueError]. *)
Definition np_concatenate (arrays : arrays_arg) (axis : axis_arg)
  : result (list A) :=
  match axis with
  | AxisObj _ => Raise TypeError
  | AxisDefault =>
      match arrays with
      | Arrays [] => Raise ValueError
      | Arrays arrs => Ok (concat arrs)
      | Rows _ => Raise ValueError
      end
  end.

End Sequences.

End Py.

Import Py.

(* ===================================================================== *)
(** * The script and its collaborators *)
(* ===================================================================== *)

(** The cells call into collaborators that the notebook leaves opaque: the
    random generator behind [np.random.shuffle], the model factory
    [get_model()] and the methods of the objects it returns.  A run is
    modelled by the chronological history of these calls; what a
    collaborator answers may depend on everything that happened before. *)

Module Workflow.
Section Script.
Context {A score : Type}.

(** One interaction of the script with a collaborator.  Models are
    numbered in the order [get_model()] creates them. *)
Inductive event : Type :=
| Shuffle
| GetModel
| Call (model : nat) (method : string) (arg : list A).

Definition history : Type := list event.

(** The arrangement that the generator gives the array, after the
    given history. *)
Variable shuffle : history -> list A -> list A.

(** What a method call returns; the history ends with the call. *)
Variable response : history -> score.

(** A statement: from the history so far to a value or an exception,
    and the history extended by the calls made.  Calls made before an
    exception stay in the history. *)
Definition M (X : Type) : Type := history -> result X * history.

Definition ret {X : Type} (x : X) : M X := fun h => (Ok x, h).

Definition bind {X Y : Type} (c : M X) (k : X -> M Y) : M Y :=
  fun h =>
    match c h with
    | (Ok x, h') => k x h'
    | (Raise e, h') => (Raise e, h')
    end.

(** An expression without effect on the collaborators. *)
Definition lift {X : Type} (r : result X) : M X := fun h => (r, h).

(** [for x in xs: s = body(x, s)] *)
Fixpoint for_each {S : Type} (xs : list Z) (body : Z -> S -> M S) (s : S)
  : M S :=
  match xs with
  | [] => ret s
  | x :: xs' => bind (body x s) (for_each xs' body)
  end.

Definition is_get_model (e : event) : bool :=
  match e with GetModel => true | _ => false end.

(** [np.random.shuffle(data)]: the array is rearranged in place; the
    value is its new content. *)
Definition np_random_shuffle (data : list A) : M (list A) :=
  fun h => (Ok (shuffle h data), h ++ [Shuffle]).

(** [get_model()]: a fresh model. *)
Definition get_model : M nat :=
  fun h => (Ok (length (filter is_get_model h)), h ++ [GetModel]).

(** [model.method(arg)] *)
Definition call (model : nat) (method : string) (arg : list A) : M score :=
  fun h =>
    let h' := h ++ [Call model method arg] in (Ok (response h'), h').

(** Number of calls of [method] in a history, on any model. *)
Definition is_call (method : string) (e : event) : bool :=
  match e with
  | Call _ m _ => String.eqb m method
  | _ => false
  end.

Definition count_calls (method : string) (h : history) : Z :=
  len (filter (is_call method) h).

(** Number of models created in a history. *)
Definition count_models (h : history) : Z :=
  len (filter is_get_model h).

(** A stretch of history holds [r] training/evaluation runs: [r] models
    were created, [r] [train] calls and [r] [evaluate] calls made. *)
Definition runs (h : history) (r : Z) : Prop :=
  count_models h = r /\
  count_calls "train" h = r /\
  count_calls "evaluate" h = r.

End Script.

Arguments event : clear implicits.
Arguments history : clear implicits.
Arguments M : clear implicits.

Declare Scope script_scope.
Delimit Scope script_scope with script.
Notation "x <- c ;; k" := (bind c (fun x => k))
  (at level 61, c at next level, right associativity) : script_scope.
Notation "c ;; k" := (bind c (fun _ => k))
  (at level 61, right associativity) : script_scope.

End Workflow.

Import Workflow.

(* ===================================================================== *)
(** * Simple hold-out validation (cell 4f039983) *)
(* ===================================================================== *)

Module HoldOut.
Section Split.
Context {A : Type}.

(** [np.random.shuffle(data)] rearranges [data] in place; [shuffle] is
    the rearrangement that the generator applies in the run at hand.
    The definitions below take the dataset as it is after that call. *)

(** [validation_data = data[:num_validation_samples]] *)
Definition validation_data (data : list A) (num_validation_samples : Z)
  : list A :=
  slice data None (Some num_validation_samples).

(** [data = data[num_validation_samples:]] *)
Definition remaining_data (data : list A) (num_validation_samples : Z)
  : list A :=
  slice data (Some num_validation_samples) None.

(** [training_data = data[:]], on the rebound [data]. *)
Definition training_data (data : list A) (num_validation_samples : Z)
  : list A :=
  slice (remaining_data data num_validation_samples) None None.

(** [np.concatenate([training_data, validation_data])], the set on
    which the final model is trained. *)
Definition final_training_data (data : list A) (num_validation_samples : Z)
  : result (list A) :=
  np_concatenate
    (Arrays [training_data data num_validation_samples;
             validation_data data num_validation_samples])
    AxisDefault.

(** The split of one run: shuffle, then cut. *)
Definition split (shuffle : list A -> list A) (data : list A)
    (num_validation_samples : Z) : list A * list A :=
  let data := shuffle data in
  (validation_data data num_validation_samples,
   training_data data num_validation_samples).

End Split.

Section Cell.
Context {A score : Type}.
Variable shuffle : history A -> list A -> list A.
Variable response : history A -> score.

Local Open Scope script_scope.

(** The whole cell.  The tuning between the two trainings, which the
    cell leaves as [...], is empty. *)
Definition cell (data test_data : list A) (num_validation_samples : Z)
  : M A (score * score) :=
  data <- np_random_shuffle shuffle data ;;
  let validation_data := validation_data data num_validation_samples in
  let data := remaining_data data num_validation_samples in
  let training_data := slice data None None in
  model <- get_model ;;
  call response model "train" training_data ;;
  validation_score <- call response model "evaluation" validation_data ;;
  model <- get_model ;;
  all_data <- lift (np_concatenate (Arrays [training_data; validation_data])
                                   AxisDefault) ;;
  call response model "train" all_data ;;
  test_score <- call response model "evaluate" test_data ;;
  ret (validation_score, test_score).

End Cell.
End HoldOut.

(* ===================================================================== *)
(** * K-fold validation (cell 15ea261f) *)
(* ===================================================================== *)

Module KFold.
Section Cell.
Context {A score : Type}.
Variable shuffle : history A -> list A -> list A.
Variable response : history A -> score.

(** [np.average(validation_scores)], a float computation left opaque. *)
Variable np_average : list score -> score.

(** [num_validation_samples = len(data) // k] *)
Definition num_validation_samples (data : list A) (k : Z) : result Z :=
  floordiv (len data) k.

(** [validation_data = data[num_validation_samples * fold:
                            num_validation_samples * (fold + 1)]] *)
Definition validation_data (data : list A) (n fold : Z) : list A :=
  slice data (Some (n * fold)) (Some (n * (fold + 1))).

(** [data[:num_validation_samples * fold]] *)
Definition before_fold (data : list A) (n fold : Z) : list A :=
  slice data None (Some (n * fold)).

(** [data[num_validation_samples * (fold + 1):]] *)
Definition after_fold (data : list A) (n fold : Z) : list A :=
  slice data (Some (n * (fold + 1))) None.

(** [training_data = np.concatenate(data[:n * fold], data[n * (fold + 1):])]
    as the cell writes it: the two slices are two positional arguments,
    so the second one is bound to [axis]. *)
Definition training_data (data : list A) (n fold : Z) : result (list A) :=
  np_concatenate (Rows (before_fold data n fold))
                 (AxisObj (after_fold data n fold)).

Local Open Scope script_scope.

(** Body of [for fold in range(k)], for a given way [join] of forming
    the training data of a fold. *)
Definition fold_body (join : list A -> Z -> Z -> result (list A))
    (data : list A) (n : Z) (fold : Z) (validation_scores : list score)
  : M A (list score) :=
  let validation_data := validation_data data n fold in
  training_data <- lift (join data n fold) ;;
  model <- get_model ;;
  call response model "train" training_data ;;
  validation_score <- call response model "evaluate" validation_data ;;
  ret (validation_scores ++ [validation_score]).

(** [validation_scores = []; for fold in range(k): ...] *)
Definition validation_loop (join : list A -> Z -> Z -> result (list A))
    (data : list A) (n k : Z) : M A (list score) :=
  for_each (range k) (fold_body join data n) [].

(** The whole cell, for a given [join]. *)
Definition cell_with (join : list A -> Z -> Z -> result (list A))
    (data test_data : list A) (k : Z) : M A (score * score) :=
  n <- lift (num_validation_samples data k) ;;
  data <- np_random_shuffle shuffle data ;;
  validation_scores <- validation_loop join data n k ;;
  let validation_score := np_average validation_scores in
  model <- get_model ;;
  call response model "train" data ;;
  test_score <- call response model "evaluate" test_data ;;
  ret (validation_score, test_score).

(** The cell as the notebook has it. *)
Definition cell : list A -> list A -> Z -> M A (score * score) :=
  cell_with training_data.

End Cell.
End KFold.

(* ===================================================================== *)
(** * Iterated K-fold validation with shuffling *)
(* ===================================================================== *)

Module IteratedKFold.
Section Protocol.
Context {A score : Type}.
Variable shuffle : history A -> list A -> list A.
Variable response : history A -> score.
Variable np_average : list score -> score.

Local Open Scope script_scope.



End Protocol.
End IteratedKFold.

(* ===================================================================== *)
(** * The convnet and its printed summary *)
(* ===================================================================== *)

Module Convnet.

Inductive activation : Type := relu | softmax.

(** Layer constructors as the notebooks call them.  An integer
    [kernel_size] or [pool_size] stands for the square window. *)
Inductive layer : Type :=
| Conv2D (filters : Z) (kernel_size : Z * Z) (act : activation)
| MaxPooling2D (pool_size : Z * Z)
| Flatten
| Dense (units : Z) (act : activation).

(** Output shapes without the batch dimension: [(None, h, w, c)] and
    [(None, n)]. *)
Inductive shape : Type :=
| Map (height width channels : Z)
| Vec (units : Z).

(** Modelled from the spec: the framework's shape inference is not part
    of the repository.  A convolution with kernel size [k] and no padding
    reduces a spatial dimension by [k - 1]; a kernel that does not fit
    into the input is a shape mismatch, which the framework reports. *)
Definition conv_output_length (s k : Z) : result Z :=
  if s <? k then Raise ValueError else Ok (s - (k - 1)).

(** Modelled from the spec: a pooling stage with window [w] floor-divides
    a spatial dimension by [w]. *)
Definition pool_output_length (s w : Z) : Z := s / w.

(** Modelled from the spec: output shape of a layer on an input shape.
    [Flatten] lays a feature map out as one vector, [Dense] maps a vector
    to [units] outputs; a layer applied to an input of the wrong rank is
    a shape mismatch. *)
Definition output_shape (l : layer) (input : shape) : result shape :=
  match l, input with
  | Conv2D filters (kh, kw) _, Map h w _ =>
      match conv_output_length h kh, conv_output_length w kw with
      | Ok h', Ok w' => Ok (Map h' w' filters)
      | Raise e, _ | _, Raise e => Raise e
      end
  | MaxPooling2D (ph, pw), Map h w c =>
      Ok (Map (pool_output_length h ph) (pool_output_length w pw) c)
  | Flatten, Map h w c => Ok (Vec (h * w * c))
  | Dense units _, Vec _ => Ok (Vec units)
  | _, _ => Raise ValueError
  end.

(** Modelled from the spec: the framework's parameter count is not part
    of the repository, and the spec names the printed architecture table
    without giving a rule for its last column.  The rule taken here is the
    usual one: a convolution has one [kh * kw * c] kernel and one bias per
    filter, a dense layer one weight per input and one bias per unit;
    pooling and flattening have none.  It is checked below against every
    row that the notebooks print. *)
Definition count_params (l : layer) (input : shape) : Z :=
  match l, input with
  | Conv2D filters (kh, kw) _, Map _ _ c => (kh * kw * c + 1) * filters
  | Dense units _, Vec n => n * units + units
  | _, _ => 0
  end.

(** One row of [model.summary()]: output shape and parameter count. *)
Definition row : Type := (shape * Z)%type.

(** The rows of [model.summary()] for a stack of layers. *)
Fixpoint summary (layers : list layer) (input : shape) : result (list row) :=
  match layers with
  | [] => Ok []
  | l :: layers' =>
      match output_shape l input with
      | Raise e => Raise e
      | Ok out =>
          match summary layers' out with
          | Raise e => Raise e
          | Ok rows => Ok ((out, count_params l input) :: rows)
          end
      end
  end.

(** [Total params] *)
Definition total_params (rows : list row) : Z :=
  fold_right (fun r acc => snd r + acc) 0 rows.

(** Height and width of the feature maps among the rows, in order. *)
Definition spatial_sizes (rows : list row) : list (Z * Z) :=
  flat_map (fun r => match fst r with
                     | Map h w _ => [(h, w)]
                     | Vec _ => []
                     end) rows.

(** [input_shape=(28, 28, 1)] *)
Definition input_shape : shape := Map 28 28 1.

(** The five layers added in cell 4545d540 of [5_1_convnet_introduction]. *)
Definition convnet_base : list layer :=
  [ Conv2D 32 (3, 3) relu;
    MaxPooling2D (2, 2);
    Conv2D 64 (3, 3) relu;
    MaxPooling2D (2, 2);
    Conv2D 64 (3, 3) relu ].

(** ... and the classifier added on top in cell 7c1b82dc. *)
Definition convnet : list layer :=
  convnet_base ++ [ Flatten; Dense 64 relu; Dense 10 softmax ].

(** The functional-API convnet of the second notebook (cell 4545d540),
    after its [keras.Input(shape=(28, 28, 1))]. *)
Definition functional_convnet : list layer :=
  [ Conv2D 32 (3, 3) relu;
    MaxPooling2D (2, 2);
    Conv2D 64 (3, 3) relu;
    MaxPooling2D (2, 2);
    Conv2D 128 (3, 3) relu;
    Flatten;
    Dense 10 softmax ].

(** The table printed under cell 4545d540. *)
Definition printed_base : list row :=
  [ (Map 26 26 32, 320);
    (Map 13 13 32, 0);
    (Map 11 11 64, 18496);
    (Map 5 5 64, 0);
    (Map 3 3 64, 36928) ].

Definition printed_base_total : Z := 55744.

(** The table printed under cell 7c1b82dc. *)
Definition printed_convnet : list row :=
  [ (Map 26 26 32, 320);
    (Map 13 13 32, 0);
    (Map 11 11 64, 18496);
    (Map 5 5 64, 0);
    (Map 3 3 64, 36928);
    (Vec 576, 0);
    (Vec 64, 36928);
    (Vec 10, 650) ].

Definition printed_convnet_total : Z := 93322.

(** The table printed in the second notebook, below its input row. *)
Definition printed_functional : list row :=
  [ (Map 26 26 32, 320);
    (Map 13 13 32, 0);
    (Map 11 11 64, 18496);
    (Map 5 5 64, 0);
    (Map 3 3 128, 73856);
    (Vec 1152, 0);
    (Vec 10, 11530) ].

Definition printed_functional_total : Z := 104202.

(** Kernels and pooling windows with at least one cell each way. *)
Definition positive_windows (l : layer) : Prop :=
  match l with
  | Conv2D _ (kh, kw) _ => 1 <= kh /\ 1 <= kw
  | MaxPooling2D (ph, pw) => 1 <= ph /\ 1 <= pw
  | Flatten | Dense _ _ => True
  end.

End Convnet.

(* ===================================================================== *)
(** * Facts about slices *)
(* ===================================================================== *)

Module PyFacts.
Section Slices.
Context {A : Type}.
Implicit Types l : list A.

Lemma len_nonneg l : 0 <= len l.
Proof. unfold len. lia. Qed.


Lemma firstn_clamp l (n : nat) :
  firstn (Nat.min n (length l)) l = firstn n l.
Proof.
  destruct (Nat.le_gt_cases n (length l)) as [Hle | Hgt].
  - now rewrite Nat.min_l.
  - rewrite Nat.min_r by lia.
    rewrite !firstn_all2; auto; lia.
Qed.

Lemma skipn_clamp l (n : nat) :
  skipn (Nat.min n (length l)) l = skipn n l.
Proof.
  destruct (Nat.le_gt_cases n (length l)) as [Hle | Hgt].
  - now rewrite Nat.min_l.
  - rewrite Nat.min_r by lia.
    rewrite !skipn_all2; auto; lia.
Qed.

(** [l[:]] is a copy of [l]. *)
Lemma slice_all l : slice l None None = l.
Proof.
  unfold slice, len. cbn [skipn Z.to_nat].
  rewrite Z.sub_0_r, Nat2Z.id. apply firstn_all.
Qed.

(** [l[:n]] is the prefix of length [n], for [n >= 0]. *)
Lemma slice_to l n :
  0 <= n -> slice l None (Some n) = firstn (Z.to_nat n) l.
Proof.
  intros Hn. unfold slice, adjust_index, len.
  destruct (Z.ltb_spec n 0) as [Hneg | _]; [lia |].
  cbn [Z.to_nat skipn]. rewrite Z.sub_0_r.
  rewrite <- (firstn_clamp l (Z.to_nat n)). f_equal. lia.
Qed.

(** [l[n:]] drops the first [n] elements, for [n >= 0]. *)
Lemma slice_from l n :
  0 <= n -> slice l (Some n) None = skipn (Z.to_nat n) l.
Proof.
  intros Hn. unfold slice, adjust_index, len.
  destruct (Z.ltb_spec n 0) as [Hneg | _]; [lia |].
  replace (Z.to_nat (Z.min n (Z.of_nat (length l))))
    with (Nat.min (Z.to_nat n) (length l)) by lia.
  rewrite skipn_clamp. apply firstn_all2.
  rewrite length_skipn. lia.
Qed.

(** [l[a:b]] for [0 <= a <= b]. *)
Lemma slice_between l a b :
  0 <= a <= b ->
  slice l (Some a) (Some b)
  = firstn (Z.to_nat (b - a)) (skipn (Z.to_nat a) l).
Proof.
  intros [Ha Hab]. unfold slice, adjust_index, len.
  destruct (Z.ltb_spec a 0) as [Hneg | _]; [lia |].
  destruct (Z.ltb_spec b 0) as [Hneg | _]; [lia |].
  replace (Z.to_nat (Z.min a (Z.of_nat (length l))))
    with (Nat.min (Z.to_nat a) (length l)) by lia.
  rewrite skipn_clamp.
  rewrite <- (firstn_clamp (skipn (Z.to_nat a) l) (Z.to_nat (b - a))).
  f_equal. rewrite length_skipn. lia.
Qed.

(** A prefix and the matching suffix partition the list. *)
Lemma slice_to_from l n :
  0 <= n -> slice l None (Some n) ++ slice l (Some n) None = l.
Proof.
  intros Hn. rewrite slice_to, slice_from by assumption.
  apply firstn_skipn.
Qed.

Lemma len_slice_to l n :
  0 <= n <= len l -> len (slice l None (Some n)) = n.
Proof.
  intros [Hn Hle]. rewrite slice_to by assumption.
  unfold len in *. rewrite length_firstn. lia.
Qed.

Lemma len_slice_from l n :
  0 <= n <= len l -> len (slice l (Some n) None) = len l - n.
Proof.
  intros [Hn Hle]. rewrite slice_from by assumption.
  unfold len in *. rewrite length_skipn. lia.
Qed.

Lemma len_slice_between l a b :
  0 <= a <= b -> b <= len l -> len (slice l (Some a) (Some b)) = b - a.
Proof.
  intros Hab Hb. rewrite slice_between by assumption.
  unfold len in *. rewrite length_firstn, length_skipn. lia.
Qed.

(** Cutting a list at [a] and at [b]: prefix, middle and suffix. *)
Lemma slice_three l a b :
  0 <= a <= b ->
  slice l None (Some a) ++ slice l (Some a) (Some b) ++ slice l (Some b) None
  = l.
Proof.
  intros Hab.
  rewrite slice_to, slice_between, slice_from by lia.
  replace (Z.to_nat b) with (Z.to_nat (b - a) + Z.to_nat a)%nat by lia.
  rewrite <- skipn_skipn, firstn_skipn. apply firstn_skipn.
Qed.

(** A prefix extended by the next block is the longer prefix. *)
Lemma slice_to_extend l a b :
  0 <= a <= b ->
  slice l None (Some a) ++ slice l (Some a) (Some b) = slice l None (Some b).
Proof.
  intros Hab.
  rewrite (slice_to l) by lia. rewrite slice_between by lia.
  rewrite (slice_to l) by lia.
  replace (Z.to_nat b) with (Z.to_nat a + Z.to_nat (b - a))%nat by lia.
  generalize (Z.to_nat a) (Z.to_nat (b - a)). clear.
  intros n m. revert l. induction n as [| n IH]; intros l; cbn.
  - reflexivity.
  - destruct l as [| x l]; cbn.
    + now rewrite firstn_nil.
    + now rewrite IH.
Qed.

End Slices.

Lemma range_succ k : 0 <= k -> range (k + 1) = range k ++ [k].
Proof.
  intros Hk. unfold range.
  replace (Z.to_nat (k + 1)) with (S (Z.to_nat k)) by lia.
  rewrite seq_S, map_app. cbn. do 2 f_equal. lia.
Qed.

Lemma in_range k i : In i (range k) <-> 0 <= i < k.
Proof.
  unfold range. rewrite in_map_iff. split.
  - intros [n [<- Hn]]. apply in_seq in Hn. lia.
  - intros Hi. exists (Z.to_nat i). split; [lia |].
    apply in_seq. lia.
Qed.


End PyFacts.

(* ===================================================================== *)
(** * Hold-out validation: the split *)
(* ===================================================================== *)

Module HoldOutSpec.
Import PyFacts.

Section Split.
Context {A : Type}.
Implicit Types data : list A.

(** Whatever the bound, [l[:n]] and [l[n:]] cut [l] at one place. *)
Lemma slice_cut data n :
  exists c : nat,
    slice data None (Some n) = firstn c data /\
    slice data (Some n) None = skipn c data.
Proof.
  exists (Z.to_nat (adjust_index (len data) n)).
  unfold slice. cbn [skipn Z.to_nat].
  set (c := adjust_index (len data) n).
  assert (Hc : 0 <= c <= len data).
  { subst c. unfold adjust_index. pose proof (len_nonneg data).
    destruct (Z.ltb_spec n 0); lia. }
  split.
  - now rewrite Z.sub_0_r.
  - apply firstn_all2. rewrite length_skipn. unfold len in *. lia.
Qed.

Lemma validation_training_app data n :
  HoldOut.validation_data data n ++ HoldOut.training_data data n = data.
Proof.
  unfold HoldOut.validation_data, HoldOut.training_data,
    HoldOut.remaining_data.
  rewrite slice_all.
  destruct (slice_cut data n) as [c [-> ->]]. apply firstn_skipn.
Qed.

Lemma validation_is_prefix data n :
  0 <= n -> HoldOut.validation_data data n = firstn (Z.to_nat n) data.
Proof. intros Hn. now apply slice_to. Qed.

Lemma training_is_suffix data n :
  0 <= n -> HoldOut.training_data data n = skipn (Z.to_nat n) data.
Proof.
  intros Hn. unfold HoldOut.training_data, HoldOut.remaining_data.
  rewrite slice_all. now apply slice_from.
Qed.

Lemma app_NoDup_disjoint (l1 l2 : list A) x :
  NoDup (l1 ++ l2) -> In x l1 -> In x l2 -> False.
Proof.
  induction l1 as [| a l1 IH]; cbn; intros Hnd H1 H2.
  - exact H1.
  - inversion Hnd as [| ? ? Hnot Hnd']; subst.
    destruct H1 as [-> | H1].
    + apply Hnot, in_or_app. now right.
    + now apply IH.
Qed.

End Split.

(** C2 -- For a dataset of size [D] and a validation count [N] with
    [0 <= N <= D], the hold-out split yields [len(validation_data) = N]
    and [len(training_data) = D - N]; validation takes the positions
    [0 .. N-1] of the shuffled dataset and training the positions
    [N .. D-1], so the two partition the shuffled dataset and, the samples
    being pairwise distinct, share no sample. *)
Theorem holdout_split_sizes_disjoint {A : Type}
    (shuffle : list A -> list A) (data : list A) (N : Z) :
  Permutation data (shuffle data) ->
  0 <= N <= len data ->
  let shuffled := shuffle data in
  let validation := HoldOut.validation_data shuffled N in
  let training := HoldOut.training_data shuffled N in
  HoldOut.split shuffle data N = (validation, training) /\
  len validation = N /\
  len training = len data - N /\
  validation ++ training = shuffled /\
  (forall i, (i < Z.to_nat N)%nat ->
             nth_error validation i = nth_error shuffled i) /\
  (forall j, nth_error training j = nth_error shuffled (Z.to_nat N + j)) /\
  (NoDup data -> forall x, In x validation -> In x training -> False).
Proof.
  intros Hperm HN shuffled validation training.
  assert (Hlen : len shuffled = len data).
  { unfold len. f_equal. symmetry. now apply Permutation_length. }
  assert (Hv : validation = firstn (Z.to_nat N) shuffled)
    by (apply validation_is_prefix; lia).
  assert (Ht : training = skipn (Z.to_nat N) shuffled)
    by (apply training_is_suffix; lia).
  repeat split.
  - rewrite Hv. unfold len in *. rewrite length_firstn. lia.
  - rewrite Ht. unfold len in *. rewrite length_skipn. lia.
  - apply validation_training_app.
  - intros i Hi. rewrite Hv, nth_error_firstn.
    destruct (Nat.ltb_spec i (Z.to_nat N)); [reflexivity | lia].
  - intros j. rewrite Ht. apply nth_error_skipn.
  - intros Hnd x Hxv Hxt.
    apply (@app_NoDup_disjoint A validation training x); auto.
    unfold validation, training. rewrite validation_training_app.
    apply (Permutation_NoDup Hperm Hnd).
Qed.

Lemma holdout_split_sizes_disjoint_witness :
  let data := [10; 20; 30; 40; 50]%Z in
  HoldOut.split (@rev Z) data 2 = ([50; 40], [30; 20; 10]) /\
  len (HoldOut.validation_data (rev data) 2) = 2 /\
  len (HoldOut.training_data (rev data) 2) = 3.
Proof.
  intros data.
  assert (Hperm : Permutation data (rev data)) by apply Permutation_rev.
  assert (HN : 0 <= 2 <= len data) by (cbn; lia).
  destruct (@holdout_split_sizes_disjoint Z (@rev Z) data 2 Hperm HN)
    as (Hs & Hv & Ht & _).
  split; [exact Hs | split; [exact Hv | exact Ht]].
Defined.

(** Samples that occur twice can land on both sides of the cut: the two
    sides are disjoint as position ranges, not as sets of values. *)
Example holdout_duplicates_overlap :
  In 7 (HoldOut.validation_data [7; 7; 8] 1) /\
  In 7 (HoldOut.training_data [7; 7; 8] 1).
Proof. split; vm_compute; left; reflexivity. Qed.

(** C6 -- The hold-out split is determined by the dataset and the
    arrangement the shuffle produces: two runs on the same dataset whose
    shuffles yield the same arrangement have identical [validation_data]
    and [training_data]; in particular two runs with the same shuffle
    agree. *)
Theorem holdout_split_deterministic {A : Type}
    (shuffle1 shuffle2 : list A -> list A) (data : list A) (N : Z) :
  shuffle1 data = shuffle2 data ->
  HoldOut.split shuffle1 data N = HoldOut.split shuffle2 data N /\
  fst (HoldOut.split shuffle1 data N)
    = HoldOut.validation_data (shuffle2 data) N /\
  snd (HoldOut.split shuffle1 data N)
    = HoldOut.training_data (shuffle2 data) N.
Proof.
  intros Hsame. unfold HoldOut.split. cbn [fst snd].
  rewrite Hsame. auto.
Qed.

Lemma holdout_split_deterministic_witness :
  HoldOut.split (@rev Z) [1; 2; 1] 1
  = HoldOut.split (fun l : list Z => l) [1; 2; 1] 1.
Proof.
  apply (@holdout_split_deterministic Z (@rev Z) (fun l => l) [1; 2; 1] 1).
  reflexivity.
Defined.

(** C9 -- The final retraining set
    [np.concatenate([training_data, validation_data])] is formed without
    error and is a rearrangement of the shuffled dataset, hence of the
    original one: the split followed by the concatenation loses no sample
    and duplicates none. *)
Theorem holdout_retrain_permutation {A : Type}
    (shuffle : list A -> list A) (data : list A) (N : Z) :
  Permutation data (shuffle data) ->
  let shuffled := shuffle data in
  exists retrain,
    HoldOut.final_training_data shuffled N = Ok retrain /\
    retrain = HoldOut.training_data shuffled N
              ++ HoldOut.validation_data shuffled N /\
    Permutation retrain shuffled /\
    Permutation retrain data /\
    len retrain = len data.
Proof.
  intros Hperm shuffled.
  exists (HoldOut.training_data shuffled N
          ++ HoldOut.validation_data shuffled N).
  assert (Hshuf : Permutation
                    (HoldOut.training_data shuffled N
                     ++ HoldOut.validation_data shuffled N) shuffled).
  { rewrite Permutation_app_comm.
    now rewrite validation_training_app. }
  repeat split.
  - unfold HoldOut.final_training_data, np_concatenate. cbn.
    now rewrite app_nil_r.
  - exact Hshuf.
  - now rewrite Hshuf.
  - unfold len. f_equal. apply Permutation_length.
    now rewrite Hshuf.
Qed.

Lemma holdout_retrain_permutation_witness :
  exists retrain,
    HoldOut.final_training_data (rev [10; 20; 30; 40; 50]%Z) 2 = Ok retrain /\
    Permutation retrain [10; 20; 30; 40; 50]%Z.
Proof.
  destruct (@holdout_retrain_permutation Z (@rev Z) [10; 20; 30; 40; 50] 2
              (Permutation_rev _))
    as (retrain & Hok & _ & _ & Hperm & _).
  exists retrain. split; [exact Hok | exact Hperm].
Defined.

End HoldOutSpec.

(* ===================================================================== *)
(** * K-fold validation: the blocks *)
(* ===================================================================== *)

Module KFoldSpec.
Import PyFacts.

Section Blocks.
Context {A : Type}.
Implicit Types data : list A.

(** The block size and how far the [k] blocks reach. *)
Lemma block_size_bounds data k :
  1 <= k ->
  0 <= len data / k /\ len data / k * k <= len data.
Proof.
  intros Hk. pose proof (len_nonneg data) as Hlen. split.
  - apply Z.div_pos; lia.
  - rewrite Z.mul_comm. apply Z.mul_div_le. lia.
Qed.

Lemma block_size_positive data k :
  1 <= k <= len data -> 1 <= len data / k.
Proof.
  intros [Hk Hle].
  assert (H : k * 1 <= len data) by lia.
  apply Z.div_le_lower_bound in H; lia.
Qed.

Lemma num_validation_samples_ok data k :
  1 <= k -> KFold.num_validation_samples data k = Ok (len data / k).
Proof.
  intros Hk. unfold KFold.num_validation_samples, floordiv.
  destruct (Z.eqb_spec k 0); [lia | reflexivity].
Qed.

(** Every fold of the pass has a full block. *)
Lemma validation_data_size data k fold :
  1 <= k -> 0 <= fold < k ->
  len (KFold.validation_data data (len data / k) fold) = len data / k.
Proof.
  intros Hk Hfold. destruct (block_size_bounds data Hk) as [Hn Hreach].
  unfold KFold.validation_data.
  rewrite len_slice_between; nia.
Qed.

(** Head, block and tail of a fold partition the dataset. *)
Lemma fold_partition data n fold :
  0 <= n -> 0 <= fold ->
  KFold.before_fold data n fold
    ++ KFold.validation_data data n fold
    ++ KFold.after_fold data n fold = data.
Proof.
  intros Hn Hfold.
  unfold KFold.before_fold, KFold.validation_data, KFold.after_fold.
  apply slice_three. nia.
Qed.

(** The cell's call binds the second slice to [axis]: it raises, on
    every dataset and for every fold. *)
Lemma training_data_raises data n fold :
  KFold.training_data data n fold = Raise TypeError.
Proof. reflexivity. Qed.

(** A list of two arrays is joined in order. *)
Lemma np_concatenate_pair (a b : list A) :
  np_concatenate (Arrays [a; b]) AxisDefault = Ok (a ++ b).
Proof. unfold np_concatenate. cbn. now rewrite app_nil_r. Qed.

(** The two slices around the block of a fold, joined, and the block
    rearrange the whole dataset. *)
Lemma joined_slices_validation_union data k fold :
  1 <= k -> 0 <= fold < k ->
  let n := len data / k in
  let training := KFold.before_fold data n fold
                  ++ KFold.after_fold data n fold in
  Permutation (training ++ KFold.validation_data data n fold) data /\
  (forall x, In x data <->
             In x training \/ In x (KFold.validation_data data n fold)).
Proof.
  intros Hk Hfold n training.
  destruct (block_size_bounds data Hk) as [Hn _].
  assert (Hperm :
    Permutation (training ++ KFold.validation_data data n fold) data).
  { unfold training.
    rewrite <- (@fold_partition data n fold) at 4 by lia.
    rewrite <- app_assoc. apply Permutation_app_head.
    apply Permutation_app_comm. }
  split; [exact Hperm |].
  intros x. rewrite <- in_app_iff. split; intros Hx.
  - apply (Permutation_in x (Permutation_sym Hperm) Hx).
  - apply (Permutation_in x Hperm Hx).
Qed.

(** The blocks of the folds [0 .. m-1], in order, make up the prefix
    they span. *)
Lemma blocks_prefix data n (m : nat) :
  0 <= n ->
  concat (map (KFold.validation_data data n) (range (Z.of_nat m)))
  = slice data None (Some (n * Z.of_nat m)).
Proof.
  intros Hn. induction m as [| m IH].
  - cbn [range Z.to_nat Z.of_nat seq map concat].
    rewrite Z.mul_0_r, slice_to by lia. reflexivity.
  - replace (Z.of_nat (S m)) with (Z.of_nat m + 1) by lia.
    rewrite range_succ by lia.
    rewrite map_app, concat_app, IH. cbn [map concat].
    rewrite app_nil_r. unfold KFold.validation_data.
    apply slice_to_extend. nia.
Qed.

(** A block lies within the first [n * k] positions. *)
Lemma validation_data_in_prefix data n k fold :
  0 <= n -> 0 <= fold < k ->
  KFold.validation_data (slice data None (Some (n * k))) n fold
  = KFold.validation_data data n fold.
Proof.
  intros Hn Hfold. unfold KFold.validation_data.
  rewrite (slice_to data) by nia.
  rewrite !slice_between by nia.
  rewrite skipn_firstn_comm, firstn_firstn.
  f_equal. nia.
Qed.

(** The tail of a fold ends with the samples beyond the last block. *)
Lemma after_fold_ends_with_remainder data n k fold :
  0 <= n -> 0 <= fold < k ->
  exists middle,
    KFold.after_fold data n fold
    = middle ++ slice data (Some (n * k)) None.
Proof.
  intros Hn Hfold. unfold KFold.after_fold.
  exists (slice data (Some (n * (fold + 1))) (Some (n * k))).
  rewrite !slice_from, slice_between by nia.
  replace (Z.to_nat (n * k))
    with (Z.to_nat (n * k - n * (fold + 1)) + Z.to_nat (n * (fold + 1)))%nat
    by nia.
  rewrite <- skipn_skipn. symmetry. apply firstn_skipn.
Qed.

End Blocks.
End KFoldSpec.

(* ===================================================================== *)
(** * Runs of the K-fold cell *)
(* ===================================================================== *)

Module WorkflowFacts.
Import PyFacts.

Section Histories.
Context {A : Type}.
Implicit Types h : history A.






Lemma bind_raise {X Y : Type} (c : M A X) (k : X -> M A Y) h e h' :
  c h = (Raise e, h') -> bind c k h = (Raise e, h').
Proof. intros Hc. unfold bind. now rewrite Hc. Qed.


End Histories.

Section Cell.
Context {A score : Type}.
Variable shuffle : history A -> list A -> list A.
Variable response : history A -> score.
Variable np_average : list score -> score.

(** A way of forming the training data of a fold that does not raise. *)
Variable join : list A -> Z -> Z -> result (list A).
Hypothesis join_ok :
  forall data n fold, exists training, join data n fold = Ok training.





(** As the notebook has it, the cell stops in its first fold: forming
    the training data raises, and no model is created or trained. *)
Lemma cell_raises data test_data k h :
  1 <= k ->
  KFold.cell shuffle response np_average data test_data k h
  = (Raise TypeError, h ++ [Shuffle]).
Proof.
  intros Hk.
  unfold KFold.cell, KFold.cell_with, bind, lift, np_random_shuffle.
  rewrite KFoldSpec.num_validation_samples_ok by assumption.
  unfold KFold.validation_loop, range.
  destruct (Z.to_nat k) as [| m] eqn:Hm; [lia |].
  reflexivity.
Qed.

End Cell.

Section HoldOutCell.
Context {A score : Type}.
Variable shuffle : history A -> list A -> list A.
Variable response : history A -> score.

(** The calls of the hold-out cell when the collaborators answer every
    call: a first model is trained on the training data and asked for its
    [evaluation] on the validation data, a second one is trained on both,
    joined, and evaluated on the test data. *)
Lemma holdout_cell_run (data test_data : list A) (N : Z) (h : history A) :
  let shuffled := shuffle h data in
  let validation := HoldOut.validation_data shuffled N in
  let training := HoldOut.training_data shuffled N in
  let m := length (filter (@is_get_model A) h) in
  exists scores,
    HoldOut.cell shuffle response data test_data N h
    = (Ok scores,
       h ++ [Shuffle;
             GetModel;
             Call m "train" training;
             Call m "evaluation" validation;
             GetModel;
             Call (S m) "train" (training ++ validation);
             Call (S m) "evaluate" test_data]).
Proof.
  intros shuffled validation training m.
  unfold HoldOut.cell, bind, np_random_shuffle, get_model, call, lift, ret,
    np_concatenate.
  cbn [concat]. rewrite app_nil_r.
  eexists. rewrite <- !app_assoc. cbn [app].
  rewrite !filter_app, !length_app. cbn [filter is_get_model length].
  rewrite !Nat.add_0_r, Nat.add_1_r.
  reflexivity.
Qed.

End HoldOutCell.
End WorkflowFacts.

(* ===================================================================== *)
(** * The claims about K-fold validation *)
(* ===================================================================== *)

Module KFoldClaims.
Import PyFacts KFoldSpec WorkflowFacts.

(** C1 -- Every fold of a K-fold pass validates on a block of exactly
    [D // K] samples, and its training data, the slices before and after
    the block joined, together with the block make up the whole dataset.
    The cell does not get that far: on [data = [0 .. 7]] with [k = 4] the
    block of fold 0 has its [8 // 4 = 2] samples, but the call that forms
    the training data passes the second slice as [axis] and raises
    [TypeError]; the run ends there, after the shuffle, with no model
    created.  With the two slices passed as one list the same fold
    trains on the other six samples. *)
Theorem kfold_cell_first_fold_raises :
  let data := [0; 1; 2; 3; 4; 5; 6; 7] in
  let k := 4 in
  KFold.num_validation_samples data k = Ok 2 /\
  KFold.validation_data data 2 0 = [0; 1] /\
  KFold.training_data data 2 0 = Raise TypeError /\
  KFold.cell (fun _ l => l) (fun _ => 0) (fun _ => 0) data [] k []
    = (Raise TypeError, [Shuffle]) /\
  np_concatenate (Arrays [KFold.before_fold data 2 0;
                          KFold.after_fold data 2 0]) AxisDefault
    = Ok [2; 3; 4; 5; 6; 7].
Proof. vm_compute. repeat split. Qed.

(** The property of C1 for the call with the slices passed as one list:
    for [1 <= K <= D] and a fold [i < K], the block has [D // K >= 1]
    samples and training data plus block rearrange the dataset. *)
Lemma kfold_listed_fold_partition {A : Type} (data : list A) (k fold : Z) :
  1 <= k <= len data -> 0 <= fold < k ->
  let n := len data / k in
  KFold.num_validation_samples data k = Ok n /\
  1 <= n /\
  len (KFold.validation_data data n fold) = n /\
  exists training,
    np_concatenate (Arrays [KFold.before_fold data n fold;
                            KFold.after_fold data n fold]) AxisDefault
      = Ok training /\
    len training = len data - n /\
    Permutation (training ++ KFold.validation_data data n fold) data /\
    (forall x, In x data <->
               In x training \/ In x (KFold.validation_data data n fold)).
Proof.
  intros Hk Hfold n.
  destruct (@joined_slices_validation_union A data k fold)
    as (Hperm & Hin); [lia | lia |].
  assert (Hsize : len (KFold.validation_data data n fold) = n)
    by (apply validation_data_size; lia).
  split; [apply num_validation_samples_ok; lia |].
  split; [now apply block_size_positive |].
  split; [exact Hsize |].
  exists (KFold.before_fold data n fold ++ KFold.after_fold data n fold).
  split; [apply np_concatenate_pair |].
  split; [| split; [exact Hperm | exact Hin]].
  apply Permutation_length in Hperm.
  rewrite length_app in Hperm. subst n. unfold len in *. lia.
Qed.

(** C3, as stated, fails: with [D = 5] and [K = 2] the blocks are
    [[0; 1]] and [[2; 3]], and the last sample is in neither. *)
Lemma kfold_blocks_miss_remainder :
  let data := [0; 1; 2; 3; 4] in
  let k := 2 in
  let blocks := map (KFold.validation_data data (len data / k)) (range k) in
  1 <= k <= len data /\
  blocks = [[0; 1]; [2; 3]] /\
  ~ In 4 (concat blocks) /\
  ~ Permutation (concat blocks) data.
Proof.
  cbv zeta. split; [vm_compute; split; discriminate |].
  split; [reflexivity |]. split.
  - vm_compute. intros [H | [H | [H | [H | []]]]]; discriminate.
  - intros Hperm. apply Permutation_length in Hperm. discriminate.
Qed.

(** C3 -- For [1 <= K <= D], the [K] validation blocks of one pass, in
    fold order, are exactly the first [(D // K) * K] samples
    [data[:(D // K) * K]], each of these positions lying in one block and
    one only; they reconstruct the full dataset when [K] divides [D]. *)
Theorem kfold_blocks_cover_prefix {A : Type} (data : list A) (k : Z) :
  1 <= k <= len data ->
  let n := len data / k in
  let blocks := map (KFold.validation_data data n) (range k) in
  concat blocks = slice data None (Some (n * k)) /\
  len (concat blocks) = n * k /\
  Forall (fun block => len block = n) blocks /\
  (len data mod k = 0 -> concat blocks = data).
Proof.
  intros Hk n blocks.
  destruct (@block_size_bounds A data k) as [Hn Hreach]; [lia |].
  assert (Hcat : concat blocks = slice data None (Some (n * k))).
  { unfold blocks. rewrite <- (Z2Nat.id k) at 1 2 by lia.
    now rewrite blocks_prefix by assumption. }
  split; [exact Hcat |]. split; [| split].
  - rewrite Hcat. apply len_slice_to. fold n in Hreach. lia.
  - unfold blocks. apply Forall_map, Forall_forall.
    intros fold Hfold. apply in_range in Hfold.
    apply validation_data_size; lia.
  - intros Hmod. rewrite Hcat.
    assert (Hfull : n * k = len data).
    { pose proof (Z.div_mod (len data) k) as Hdm. subst n. lia. }
    rewrite Hfull, slice_to by apply len_nonneg.
    apply firstn_all2. unfold len. lia.
Qed.

Lemma kfold_blocks_cover_prefix_witness :
  let data := [0; 1; 2; 3; 4; 5; 6; 7; 8; 9] in
  concat (map (KFold.validation_data data (len data / 4)) (range 4))
  = slice data None (Some (len data / 4 * 4)).
Proof.
  intros data.
  assert (Hk : 1 <= 4 <= len data) by (vm_compute; split; discriminate).
  exact (proj1 (@kfold_blocks_cover_prefix Z data 4 Hk)).
Defined.

(** C8 -- When [K] does not divide [D], the last [D mod K] samples are in
    no validation block and belong to the tail slice of every fold, hence
    to the training data that the fold is meant to join.  The cell
    does not form that training data: on [data = [0 .. 9]] with [k = 4]
    the samples 8 and 9 are beyond the four blocks and inside
    [data[2 * (fold + 1):]] for every fold, and for every fold the call
    raises [TypeError] -- the defect shown for C1. *)
Theorem kfold_remainder_never_joined :
  let data := [0; 1; 2; 3; 4; 5; 6; 7; 8; 9] in
  let k := 4 in
  KFold.num_validation_samples data k = Ok 2 /\
  slice data (Some (2 * k)) None = [8; 9] /\
  Forall (fun fold =>
            existsb (Z.eqb 8) (KFold.validation_data data 2 fold) = false /\
            existsb (Z.eqb 9) (KFold.validation_data data 2 fold) = false /\
            existsb (Z.eqb 8) (KFold.after_fold data 2 fold) = true /\
            existsb (Z.eqb 9) (KFold.after_fold data 2 fold) = true /\
            KFold.training_data data 2 fold = Raise TypeError)
         (range k).
Proof.
  cbv zeta. split; [reflexivity |]. split; [reflexivity |].
  repeat constructor.
Qed.

(** The property of C8 for the call with the slices passed as one list:
    the [D mod K] samples past the last block end the training data of
    every fold, and every block lies within the first [(D // K) * K]
    positions. *)
Lemma kfold_listed_remainder_in_training {A : Type}
    (data : list A) (k fold : Z) :
  1 <= k <= len data -> 0 <= fold < k ->
  let n := len data / k in
  let remainder := slice data (Some (n * k)) None in
  len remainder = len data mod k /\
  (exists front,
     np_concatenate (Arrays [KFold.before_fold data n fold;
                             KFold.after_fold data n fold]) AxisDefault
     = Ok (front ++ remainder)) /\
  KFold.validation_data (slice data None (Some (n * k))) n fold
  = KFold.validation_data data n fold.
Proof.
  intros Hk Hfold n remainder.
  destruct (@block_size_bounds A data k) as [Hn Hreach]; [lia |].
  fold n in Hn, Hreach. split; [| split].
  - unfold remainder. rewrite len_slice_from by lia.
    pose proof (Z.div_mod (len data) k) as Hdm. subst n. lia.
  - destruct (@after_fold_ends_with_remainder A data n k fold)
      as (middle & Hafter); [lia | lia |].
    exists (KFold.before_fold data n fold ++ middle).
    rewrite np_concatenate_pair, Hafter.
    now rewrite app_assoc.
  - apply validation_data_in_prefix; lia.
Qed.

End KFoldClaims.

(* ===================================================================== *)
(** * Iterated K-fold validation: the number of runs *)
(* ===================================================================== *)

Module IteratedKFoldSpec.
Import PyFacts WorkflowFacts.

Section Protocol.
Context {A score : Type}.
Variable shuffle : history A -> list A -> list A.
Variable response : history A -> score.
Variable np_average : list score -> score.

(** A way of forming the training data of a fold that does not raise. *)
Variable join : list A -> Z -> Z -> result (list A).
Hypothesis join_ok :
  forall data n fold, exists training, join data n fold = Ok training.



End Protocol.




End IteratedKFoldSpec.

(* ===================================================================== *)
(** * The convnet: shapes and parameter counts *)
(* ===================================================================== *)

Module ConvnetSpec.
Import Convnet.

Lemma conv_output_length_fits s k :
  k <= s -> conv_output_length s k = Ok (s - (k - 1)).
Proof.
  intros Hfit. unfold conv_output_length.
  destruct (Z.ltb_spec s k); [lia | reflexivity].
Qed.

Lemma conv_output_length_positive s k out :
  1 <= k -> conv_output_length s k = Ok out -> 1 <= out <= s.
Proof.
  unfold conv_output_length. intros Hk.
  destruct (Z.ltb_spec s k); [discriminate |].
  intros [= <-]. lia.
Qed.

(** C4 -- On an input of spatial size [s >= k] an unpadded convolution
    with kernel size [k] yields the size [s - (k - 1)], and a pooling
    stage with window [w] yields [s // w]; the layers of the notebook
    take the 28x28 input through 26x26, 13x13, 11x11, 5x5 and 3x3, which
    are the output shapes of the printed tables of both notebooks. *)
Theorem convnet_spatial_sizes (s k w filters c : Z) (act : activation) :
  k <= s ->
  conv_output_length s k = Ok (s - (k - 1)) /\
  pool_output_length s w = s / w /\
  output_shape (Conv2D filters (k, k) act) (Map s s c)
    = Ok (Map (s - (k - 1)) (s - (k - 1)) filters) /\
  output_shape (MaxPooling2D (w, w)) (Map s s c)
    = Ok (Map (s / w) (s / w) c) /\
  (exists rows,
     summary convnet_base input_shape = Ok rows /\
     spatial_sizes rows = [(26, 26); (13, 13); (11, 11); (5, 5); (3, 3)] /\
     map fst rows = map fst printed_base) /\
  (exists rows,
     summary convnet input_shape = Ok rows /\
     spatial_sizes rows = [(26, 26); (13, 13); (11, 11); (5, 5); (3, 3)] /\
     map fst rows = map fst printed_convnet) /\
  (exists rows,
     summary functional_convnet input_shape = Ok rows /\
     spatial_sizes rows = [(26, 26); (13, 13); (11, 11); (5, 5); (3, 3)] /\
     map fst rows = map fst printed_functional).
Proof.
  intros Hfit.
  pose proof (conv_output_length_fits Hfit) as Hconv.
  split; [exact Hconv |]. split; [reflexivity |].
  split; [cbn [output_shape]; now rewrite Hconv |].
  split; [reflexivity |].
  split; [| split]; eexists; (split; [vm_compute; reflexivity |]);
    split; reflexivity.
Qed.

Lemma convnet_spatial_sizes_witness :
  conv_output_length 28 3 = Ok 26 /\
  pool_output_length 26 2 = 13 /\
  pool_output_length 11 2 = 5.
Proof.
  assert (Hfit : 3 <= 28) by lia.
  destruct (@convnet_spatial_sizes 28 3 2 32 1 relu Hfit) as (Hconv & _).
  split; [exact Hconv | split; reflexivity].
Defined.

(** C10 -- The parameter counts of the printed summary follow from the
    layer shapes: a [Conv2D] with [f] filters, a [k]x[k] kernel and [c]
    input channels has [(k*k*c + 1) * f] parameters, which gives 320,
    18496 and 36928 for the three convolutions; [Flatten] outputs
    [3*3*64 = 576] units; [Dense(64)] has [576*64 + 64 = 36928]
    parameters and [Dense(10)] has [64*10 + 10 = 650]; the total is
    93,322.  Every row of the printed tables is reproduced. *)
Theorem convnet_param_counts :
  (forall f k c h w act,
     count_params (Conv2D f (k, k) act) (Map h w c) = (k * k * c + 1) * f) /\
  (forall units n act,
     count_params (Dense units act) (Vec n) = n * units + units) /\
  summary convnet input_shape = Ok printed_convnet /\
  map snd printed_convnet = [320; 0; 18496; 0; 36928; 0; 36928; 650] /\
  output_shape Flatten (Map 3 3 64) = Ok (Vec 576) /\
  3 * 3 * 64 = 576 /\
  (3 * 3 * 1 + 1) * 32 = 320 /\
  (3 * 3 * 32 + 1) * 64 = 18496 /\
  (3 * 3 * 64 + 1) * 64 = 36928 /\
  576 * 64 + 64 = 36928 /\
  64 * 10 + 10 = 650 /\
  total_params printed_convnet = printed_convnet_total /\
  printed_convnet_total = 93322 /\
  summary convnet_base input_shape = Ok printed_base /\
  total_params printed_base = printed_base_total /\
  summary functional_convnet input_shape = Ok printed_functional /\
  total_params printed_functional = printed_functional_total.
Proof.
  split; [reflexivity |]. split; [reflexivity |].
  repeat split; vm_compute; reflexivity.
Qed.

End ConvnetSpec.

(* ===================================================================== *)
(** * Hold-out validation: edges of the split *)
(* ===================================================================== *)

Module HoldOutEdges.
Import PyFacts HoldOutSpec WorkflowFacts.

(** X2 -- When the validation count is at least the size of the dataset,
    the whole shuffled dataset becomes validation data, the training data
    is empty, and the final model is retrained on the dataset as
    shuffled. *)
Theorem holdout_count_beyond_size {A : Type} (data : list A) (N : Z) :
  len data <= N ->
  HoldOut.validation_data data N = data /\
  HoldOut.training_data data N = [] /\
  HoldOut.final_training_data data N = Ok data.
Proof.
  intros Hbig. pose proof (len_nonneg data) as Hlen.
  assert (Hv : HoldOut.validation_data data N = data).
  { rewrite validation_is_prefix by lia.
    apply firstn_all2. unfold len in *. lia. }
  assert (Ht : HoldOut.training_data data N = []).
  { rewrite training_is_suffix by lia.
    apply skipn_all2. unfold len in *. lia. }
  split; [exact Hv |]. split; [exact Ht |].
  unfold HoldOut.final_training_data, np_concatenate.
  rewrite Hv, Ht. cbn. now rewrite app_nil_r.
Qed.

Lemma holdout_count_beyond_size_witness :
  HoldOut.validation_data [1; 2; 3] 10000 = [1; 2; 3] /\
  HoldOut.training_data [1; 2; 3] 10000 = [] /\
  HoldOut.final_training_data [1; 2; 3] 10000 = Ok [1; 2; 3].
Proof.
  apply (@holdout_count_beyond_size Z [1; 2; 3] 10000).
  vm_compute. discriminate.
Defined.

(** X3 -- A negative validation count [N] is read from the end of the
    array: validation data is everything but the last [-N] samples and
    training data is the last [-N] samples, as far as the dataset has
    that many. *)
Theorem holdout_negative_count {A : Type} (data : list A) (N : Z) :
  N < 0 ->
  len (HoldOut.validation_data data N) = Z.max 0 (len data + N) /\
  len (HoldOut.training_data data N) = Z.min (len data) (- N) /\
  HoldOut.validation_data data N ++ HoldOut.training_data data N = data.
Proof.
  intros Hneg. split; [| split; [| apply validation_training_app]].
  - unfold HoldOut.validation_data, slice, adjust_index.
    destruct (Z.ltb_spec N 0) as [_ | Hge]; [| lia].
    cbn [skipn Z.to_nat]. unfold len. rewrite length_firstn. lia.
  - unfold HoldOut.training_data, HoldOut.remaining_data.
    rewrite slice_all. unfold slice, adjust_index.
    destruct (Z.ltb_spec N 0) as [_ | Hge]; [| lia].
    unfold len. rewrite length_firstn, length_skipn. lia.
Qed.

Lemma holdout_negative_count_witness :
  len (HoldOut.validation_data [1; 2; 3; 4; 5] (-2)) = 3 /\
  len (HoldOut.training_data [1; 2; 3; 4; 5] (-2)) = 2.
Proof.
  destruct (@holdout_negative_count Z [1; 2; 3; 4; 5] (-2)) as (Hv & Ht & _);
    [lia |].
  split; [exact Hv | exact Ht].
Defined.

(** X4 -- For [0 <= N <= D] the final retraining set is the shuffled
    dataset rotated by [N] places: its sample [i] is sample
    [(i + N) mod D] of the shuffled dataset, so the held-out samples come
    last. *)
Theorem holdout_retrain_is_rotation {A : Type} (data : list A) (N : Z) :
  0 <= N <= len data ->
  exists retrain,
    HoldOut.final_training_data data N = Ok retrain /\
    length retrain = length data /\
    forall i : nat,
      (i < length data)%nat ->
      nth_error retrain i
      = nth_error data ((i + Z.to_nat N) mod length data)%nat.
Proof.
  intros HN.
  exists (skipn (Z.to_nat N) data ++ firstn (Z.to_nat N) data).
  assert (Hn : (Z.to_nat N <= length data)%nat) by (unfold len in HN; lia).
  split; [| split].
  - unfold HoldOut.final_training_data, np_concatenate.
    rewrite training_is_suffix, validation_is_prefix by lia.
    cbn. now rewrite app_nil_r.
  - rewrite length_app, length_skipn, length_firstn. lia.
  - intros i Hi.
    destruct (Nat.lt_ge_cases (i + Z.to_nat N) (length data)) as [Hlt | Hge].
    + rewrite nth_error_app1 by (rewrite length_skipn; lia).
      rewrite nth_error_skipn, Nat.mod_small by assumption.
      f_equal. lia.
    + rewrite nth_error_app2 by (rewrite length_skipn; lia).
      rewrite length_skipn, nth_error_firstn.
      destruct (Nat.ltb_spec (i - (length data - Z.to_nat N)) (Z.to_nat N));
        [| lia].
      f_equal.
      replace (i + Z.to_nat N)%nat
        with ((i - (length data - Z.to_nat N)) + 1 * length data)%nat by lia.
      rewrite Nat.Div0.mod_add, Nat.mod_small by lia.
      reflexivity.
Qed.

Lemma holdout_retrain_is_rotation_witness :
  exists retrain,
    HoldOut.final_training_data [10; 20; 30; 40; 50] 2 = Ok retrain /\
    nth_error retrain 4 = Some 20.
Proof.
  destruct (@holdout_retrain_is_rotation Z [10; 20; 30; 40; 50] 2)
    as (retrain & Hok & _ & Hnth); [vm_compute; split; discriminate |].
  exists retrain. split; [exact Hok |].
  rewrite (Hnth 4%nat) by (cbn; lia). reflexivity.
Defined.

End HoldOutEdges.

(* ===================================================================== *)
(** * K-fold validation: edges of the cell and layout of the folds *)
(* ===================================================================== *)

Module KFoldEdges.
Import PyFacts KFoldSpec WorkflowFacts.

Section Runs.
Context {A score : Type}.
Variable shuffle : history A -> list A -> list A.
Variable response : history A -> score.
Variable np_average : list score -> score.

(** With [k = 0] the cell raises [ZeroDivisionError] in its first
    statement: the data is not shuffled and no model is created. *)
Lemma kfold_cell_zero_folds (data test_data : list A) (h : history A) :
  KFold.cell shuffle response np_average data test_data 0 h
  = (Raise ZeroDivisionError, h).
Proof. reflexivity. Qed.

(** X5 -- With a negative [k] the loop has no fold, so the faulty call is
    never reached: the cell averages an empty list of scores and makes
    one run only, the final model trained on the whole shuffled dataset
    and evaluated on the test data. *)
Theorem kfold_cell_negative_folds (data test_data : list A) (k : Z)
    (h : history A) :
  k < 0 ->
  let m := length (filter (@is_get_model A) h) in
  let ev := [Shuffle;
             GetModel;
             Call m "train" (shuffle h data);
             Call m "evaluate" test_data] in
  KFold.cell shuffle response np_average data test_data k h
  = (Ok (np_average [], response (h ++ ev)), h ++ ev) /\
  runs ev 1.
Proof.
  intros Hk m ev. split; [| repeat split].
  unfold KFold.cell, KFold.cell_with, KFold.num_validation_samples, floordiv.
  destruct (Z.eqb_spec k 0) as [H0 | _]; [lia |].
  unfold KFold.validation_loop, range.
  replace (Z.to_nat k) with 0%nat by lia.
  unfold bind, lift, np_random_shuffle, get_model, call, ret.
  cbn [seq map for_each].
  unfold ret. subst ev m.
  rewrite <- !app_assoc. cbn [app].
  rewrite filter_app, length_app. cbn [filter is_get_model length].
  rewrite Nat.add_0_r. reflexivity.
Qed.

(** X6 -- With [k >= 1] the cell raises [TypeError] in its first fold on
    every dataset, the empty one included: the data has been shuffled by
    then, but no model has been created, trained or evaluated. *)
Theorem kfold_cell_always_raises (data test_data : list A) (k : Z)
    (h : history A) :
  1 <= k ->
  exists ev,
    KFold.cell shuffle response np_average data test_data k h
    = (Raise TypeError, h ++ ev) /\
    ev = [Shuffle] /\
    runs ev 0.
Proof.
  intros Hk. exists [Shuffle].
  split; [now apply cell_raises |].
  split; [reflexivity | repeat split].
Qed.

End Runs.

Lemma kfold_cell_negative_folds_witness :
  KFold.cell (fun _ l => rev l) (fun h => len h) (fun scores => len scores)
    [1; 2; 3] [9] (-2) []
  = (Ok (0, 4),
     [Shuffle; GetModel; Call 0 "train" [3; 2; 1]; Call 0 "evaluate" [9]]).
Proof.
  assert (Hk : -2 < 0) by lia.
  exact (proj1 (@kfold_cell_negative_folds Z Z
                  (fun _ l => rev l) (fun h => len h)
                  (fun scores => len scores) [1; 2; 3] [9] (-2) [] Hk)).
Defined.

Lemma kfold_cell_always_raises_witness :
  exists ev,
    KFold.cell (fun _ l => rev l) (fun h => len h) (fun scores => len scores)
      (@nil Z) [9] 4 []
    = (Raise TypeError, [] ++ ev) /\
    ev = [Shuffle] /\
    runs ev 0.
Proof.
  apply (@kfold_cell_always_raises Z Z
           (fun _ l => rev l) (fun h => len h) (fun scores => len scores)
           [] [9] 4 []).
  lia.
Defined.

Section Layout.
Context {A : Type}.
Implicit Types data : list A.

Lemma in_firstn_in (n : nat) (l : list A) x : In x (firstn n l) -> In x l.
Proof.
  intros Hx. rewrite <- (firstn_skipn n l). apply in_or_app. now left.
Qed.

Lemma in_skipn_in (n : nat) (l : list A) x : In x (skipn n l) -> In x l.
Proof.
  intros Hx. rewrite <- (firstn_skipn n l). apply in_or_app. now right.
Qed.

(** In a list without repetition, the three parts of a cut share nothing. *)
Lemma NoDup_three_parts (l1 l2 l3 : list A) x :
  NoDup (l1 ++ l2 ++ l3) -> In x l2 -> ~ In x l1 /\ ~ In x l3.
Proof.
  intros Hnd H2. split; intros Hx.
  - apply (@HoldOutSpec.app_NoDup_disjoint A l1 (l2 ++ l3) x); auto.
    apply in_or_app. now left.
  - apply NoDup_app_remove_l in Hnd.
    now apply (@HoldOutSpec.app_NoDup_disjoint A l2 l3 x).
Qed.

End Layout.
End KFoldEdges.

Module KFoldLayout.
Import PyFacts KFoldSpec KFoldEdges.

(** X7 -- In every fold of a pass with [1 <= k], the slice before the
    block, the validation block and the slice after it are consecutive
    pieces of the dataset, of [n * fold], [n] and [D - n * (fold + 1)]
    samples for [n = D // k]; when the samples are pairwise distinct, no
    sample of the block is in either slice. *)
Theorem kfold_fold_slices_partition {A : Type} (data : list A) (k fold : Z) :
  1 <= k -> 0 <= fold < k ->
  let n := len data / k in
  KFold.before_fold data n fold
    ++ KFold.validation_data data n fold
    ++ KFold.after_fold data n fold = data /\
  len (KFold.before_fold data n fold) = n * fold /\
  len (KFold.validation_data data n fold) = n /\
  len (KFold.after_fold data n fold) = len data - n * (fold + 1) /\
  (NoDup data ->
   forall x, In x (KFold.validation_data data n fold) ->
             ~ In x (KFold.before_fold data n fold) /\
             ~ In x (KFold.after_fold data n fold)).
Proof.
  intros Hk Hfold n.
  destruct (@block_size_bounds A data k Hk) as [Hn Hreach].
  fold n in Hn, Hreach.
  assert (Hpart : KFold.before_fold data n fold
                    ++ KFold.validation_data data n fold
                    ++ KFold.after_fold data n fold = data)
    by (apply fold_partition; lia).
  split; [exact Hpart |]. split; [| split; [| split]].
  - unfold KFold.before_fold. apply len_slice_to. nia.
  - now apply validation_data_size.
  - unfold KFold.after_fold. apply len_slice_from. nia.
  - intros Hnd x Hx.
    apply (@NoDup_three_parts A (KFold.before_fold data n fold)
             (KFold.validation_data data n fold)
             (KFold.after_fold data n fold) x); [| exact Hx].
    now rewrite Hpart.
Qed.

Lemma kfold_fold_slices_partition_witness :
  let data := [0; 1; 2; 3; 4; 5; 6; 7; 8; 9] in
  KFold.before_fold data (len data / 4) 1
    ++ KFold.validation_data data (len data / 4) 1
    ++ KFold.after_fold data (len data / 4) 1 = data.
Proof.
  intros data.
  assert (Hk : 1 <= 4) by lia.
  assert (Hfold : 0 <= 1 < 4) by lia.
  exact (proj1 (@kfold_fold_slices_partition Z data 4 1 Hk Hfold)).
Defined.

(** X8 -- The validation block of a fold is a contiguous run of the
    dataset in its order: sample [t] of the block of fold [fold] is sample
    [n * fold + t] of the dataset, for [t < n]. *)
Theorem kfold_block_positions {A : Type} (data : list A) (n fold : Z)
    (t : nat) :
  0 <= n -> 0 <= fold -> (t < Z.to_nat n)%nat ->
  nth_error (KFold.validation_data data n fold) t
  = nth_error data (Z.to_nat (n * fold) + t).
Proof.
  intros Hn Hfold Ht. unfold KFold.validation_data.
  rewrite slice_between by nia.
  rewrite nth_error_firstn.
  destruct (Nat.ltb_spec t (Z.to_nat (n * (fold + 1) - n * fold)));
    [| nia].
  apply nth_error_skipn.
Qed.

Lemma kfold_block_positions_witness :
  nth_error (KFold.validation_data [10; 11; 12; 13; 14; 15; 16] 2 2) 1
  = nth_error [10; 11; 12; 13; 14; 15; 16] 5.
Proof.
  apply (@kfold_block_positions Z [10; 11; 12; 13; 14; 15; 16] 2 2 1);
    lia.
Defined.

(** X9 -- The validation blocks of two different folds of a pass share no
    sample when the samples are pairwise distinct: no sample is validated
    on twice. *)
Theorem kfold_blocks_disjoint {A : Type} (data : list A) (n i j : Z) (x : A) :
  NoDup data -> 0 <= n -> 0 <= i < j ->
  In x (KFold.validation_data data n i) ->
  In x (KFold.validation_data data n j) ->
  False.
Proof.
  intros Hnd Hn Hij Hi Hj.
  assert (Hafter : In x (KFold.after_fold data n i)).
  { unfold KFold.validation_data in Hj. unfold KFold.after_fold.
    rewrite slice_between in Hj by nia.
    rewrite slice_from by nia.
    apply in_firstn_in in Hj.
    replace (Z.to_nat (n * j))
      with (Z.to_nat (n * j - n * (i + 1)) + Z.to_nat (n * (i + 1)))%nat
      in Hj by nia.
    rewrite <- skipn_skipn in Hj.
    now apply in_skipn_in in Hj. }
  assert (Hpart := @fold_partition A data n i Hn (proj1 Hij)).
  rewrite <- Hpart in Hnd.
  destruct (@NoDup_three_parts A (KFold.before_fold data n i)
              (KFold.validation_data data n i)
              (KFold.after_fold data n i) x Hnd Hi) as [_ Hnot].
  now apply Hnot.
Qed.

Lemma kfold_blocks_disjoint_witness :
  In 3 (KFold.validation_data [0; 1; 2; 3; 4; 5; 6; 7] 2 1) /\
  ~ In 3 (KFold.validation_data [0; 1; 2; 3; 4; 5; 6; 7] 2 3).
Proof.
  assert (Hin : In 3 (KFold.validation_data [0; 1; 2; 3; 4; 5; 6; 7] 2 1))
    by (vm_compute; right; left; reflexivity).
  split; [exact Hin |]. intros Hlater.
  apply (@kfold_blocks_disjoint Z [0; 1; 2; 3; 4; 5; 6; 7] 2 1 3 3);
    [| lia | lia | exact Hin | exact Hlater].
  repeat constructor; cbn; intuition discriminate.
Defined.

(** X10 -- With more folds than samples the block size is [0]: every fold
    validates on an empty block, and the slices around it are the empty
    slice and the whole dataset. *)
Theorem kfold_more_folds_than_samples {A : Type} (data : list A) (k : Z) :
  len data < k ->
  KFold.num_validation_samples data k = Ok 0 /\
  forall fold,
    KFold.validation_data data 0 fold = [] /\
    KFold.before_fold data 0 fold = [] /\
    KFold.after_fold data 0 fold = data.
Proof.
  intros Hk. pose proof (len_nonneg data) as Hlen. split.
  - rewrite num_validation_samples_ok by lia.
    f_equal. apply Z.div_small. lia.
  - intros fold.
    unfold KFold.validation_data, KFold.before_fold, KFold.after_fold.
    rewrite !Z.mul_0_l.
    rewrite slice_between, slice_to, slice_from by lia.
    cbn. auto.
Qed.

Lemma kfold_more_folds_than_samples_witness :
  KFold.num_validation_samples [1; 2; 3] 4 = Ok 0 /\
  KFold.validation_data [1; 2; 3] 0 2 = [].
Proof.
  destruct (@kfold_more_folds_than_samples Z [1; 2; 3] 4) as (Hn & Hall);
    [vm_compute; reflexivity |].
  split; [exact Hn | apply (Hall 2)].
Defined.

End KFoldLayout.

(* ===================================================================== *)
(** * The convnet: shrinking feature maps *)
(* ===================================================================== *)

Module ConvnetStacks.
Import Convnet.

(** Past a [Flatten] there is no feature map any more. *)
Lemma summary_of_vector (layers : list layer) : forall n rows,
  summary layers (Vec n) = Ok rows -> spatial_sizes rows = [].
Proof.
  induction layers as [| l layers IH]; intros n rows Hsum.
  - cbn in Hsum. now injection Hsum as <-.
  - cbn [summary] in Hsum.
    destruct l as [f [kh kw] act | [ph pw] | | units act];
      cbn [output_shape] in Hsum; try discriminate.
    destruct (summary layers (Vec units)) as [rows' | e] eqn:Hrest;
      [| discriminate].
    injection Hsum as <-. cbn. now apply (IH units).
Qed.

Lemma pool_output_length_bounds (s w : Z) :
  0 <= s -> 1 <= w -> 0 <= pool_output_length s w <= s.
Proof.
  intros Hs Hw. unfold pool_output_length. split.
  - apply Z.div_pos; lia.
  - apply Z.div_le_upper_bound; nia.
Qed.

(** X12 -- Feature maps never grow along a stack: when the convolution
    kernels and pooling windows have at least one cell each way and the
    stack is accepted, every feature map in its summary is at most as high
    and as wide as the input. *)
Theorem feature_maps_never_grow (layers : list layer) :
  forall (h w c : Z) (rows : list row),
    Forall positive_windows layers ->
    0 <= h -> 0 <= w ->
    summary layers (Map h w c) = Ok rows ->
    Forall (fun hw => 0 <= fst hw <= h /\ 0 <= snd hw <= w)
           (spatial_sizes rows).
Proof.
  induction layers as [| l layers IH]; intros h w c rows Hwf Hh Hw Hsum.
  - cbn in Hsum. injection Hsum as <-. constructor.
  - inversion Hwf as [| ? ? Hl Hwf']; subst.
    cbn [summary] in Hsum.
    destruct l as [f [kh kw] act | [ph pw] | | units act];
      cbn [output_shape positive_windows] in Hsum, Hl.
    + unfold conv_output_length in Hsum.
      destruct (Z.ltb_spec h kh); [discriminate |].
      destruct (Z.ltb_spec w kw); [discriminate |].
      destruct (summary layers (Map (h - (kh - 1)) (w - (kw - 1)) f))
        as [rows' | e] eqn:Hrest; [| discriminate].
      injection Hsum as <-. cbn [spatial_sizes flat_map fst app].
      constructor; [cbn; lia |].
      apply IH in Hrest; [| assumption | lia | lia].
      eapply Forall_impl; [| exact Hrest].
      cbn. intros [h' w']. cbn. lia.
    + destruct (pool_output_length_bounds Hh (proj1 Hl)) as [Hph0 Hph].
      destruct (pool_output_length_bounds Hw (proj2 Hl)) as [Hpw0 Hpw].
      destruct (summary layers
                  (Map (pool_output_length h ph) (pool_output_length w pw) c))
        as [rows' | e] eqn:Hrest; [| discriminate].
      injection Hsum as <-. cbn [spatial_sizes flat_map fst app].
      constructor; [cbn; lia |].
      apply IH in Hrest; [| assumption | lia | lia].
      eapply Forall_impl; [| exact Hrest].
      cbn. intros [h' w']. cbn. lia.
    + destruct (summary layers (Vec (h * w * c))) as [rows' | e] eqn:Hrest;
        [| discriminate].
      injection Hsum as <-. cbn [spatial_sizes flat_map fst app].
      apply summary_of_vector in Hrest.
      unfold spatial_sizes in Hrest. rewrite Hrest. constructor.
    + discriminate.
Qed.

Lemma feature_maps_never_grow_witness :
  Forall (fun hw => 0 <= fst hw <= 28 /\ 0 <= snd hw <= 28)
         (spatial_sizes printed_convnet).
Proof.
  apply (@feature_maps_never_grow convnet 28 28 1 printed_convnet).
  - repeat constructor; cbn; lia.
  - lia.
  - lia.
  - reflexivity.
Defined.

End ConvnetStacks.
